(** * DataFilterManager: subsets of a DataFrame, cascading deletion and undo

    A shallow embedding of [creador_cojuntos.py] (class [DataFilterManager])
    and the properties of its subset-hierarchy engine.

    Reading guide.
    - A pandas [DataFrame] is a Python object: it has an identity, a table of
      rows that this program never changes in place (every filter, drop and
      copy builds a new frame), and instance attributes that the manager
      bolts onto it ([_parent], [_palabras_excluidas], [_aplicado]).  A frame
      is therefore a pair of an object identity and its rows; the attributes
      live in a table keyed by identity, so that two names of the store that
      hold the same object (a subset and the alias ['ultimo'],
      ['principal'] and [df_principal]) share them.
    - Frames are assumed to carry the identifier column, so pandas' [.empty]
      (no rows or no columns) is "no rows"; no column is named like one of
      the three attributes.
    - Methods are computations in a small monad: they read and write the
      manager, may raise, and print.  [print] is kept as a list of messages.
    - [filtro_palabras], [top_palabras] and [drop_lines_key] are called by
      the class but are not defined in the file.  The first two are
      parameters of the development; the third is modelled from the
      specification. *)

From stdpp Require Import gmap strings list fin_maps.
From Stdlib Require Import ZArith.

Set Default Proof Using "Type".

(** ** Tables *)

(** A cell of a table. *)
Inductive Value :=
| VInt (z : Z)
| VStr (s : string).

#[global] Instance Value_eq_dec : EqDecision Value.
Proof. solve_decision. Defined.

(** A row maps column names to cells. *)
Abbreviation Row := (gmap string Value).

(** A frame: the identity of the Python object and its rows. *)
Record DataFrame := MkDF { df_id : nat; df_rows : list Row }.

#[global] Instance DataFrame_eq_dec : EqDecision DataFrame.
Proof. solve_decision. Defined.

(** [df.empty].  pandas calls a frame empty when it has no rows or no
    columns; the frames here carry the identifier column, so the test is on
    the rows.  [con_columnas] below says of a frame what this needs. *)
Definition empty (df : DataFrame) : bool :=
  match df_rows df with [] => true | _ => false end.

(** [len(df)] *)
Definition len (df : DataFrame) : nat := length (df_rows df).



(** The values of column [column_key], row by row. *)
Definition key_values (column_key : string) (rows : list Row) : list (option Value) :=
  (λ r : Row, r !! column_key) <$> rows.

(** Modelled from the spec: [drop_lines_key] is called by [aplicar_filtro]
    but not defined in the source file.  Section 6 of the specification
    (KeySetDiff): "returns target_rows minus every row whose key_column value
    appears in reference_rows's key_column values.  Equality is exact value
    equality on the key."  The order of the kept rows is that of the target. *)
Definition drop_lines_key (df_target df_reference : list Row) (column_key : string)
  : list Row :=
  filter (λ r : Row, r !! column_key ∉ key_values column_key df_reference) df_target.

(** ** Instance attributes set on frames *)

(** [None] is "the object has no such attribute" ([hasattr] is false). *)
Record Attrs := MkAttrs {
  _parent : option (option string);
  _palabras_excluidas : option (list string);
  _aplicado : option bool
}.

#[global] Instance Attrs_eq_dec : EqDecision Attrs.
Proof. solve_decision. Defined.

Definition no_attrs : Attrs :=
  {| _parent := None; _palabras_excluidas := None; _aplicado := None |}.

(** ** The manager *)

Record Manager := MkManager {
  df_original : DataFrame;
  df_principal : DataFrame;
  columna_id : string;
  subsets : gmap string DataFrame;
  _historial_principal : list DataFrame;
  (** instance attributes of the frames, by object identity *)
  attrs : gmap nat Attrs;
  (** the identity the next new frame gets *)
  next_id : nat
}.

#[global] Instance Manager_eq_dec : EqDecision Manager.
Proof. solve_decision. Defined.

(** ** Exceptions, printed messages, and the monad of methods *)

Inductive Exn :=
| ValueError (about : string)
| KeyError (about : string)
(** any other exception a collaborator raises *)
| OtherError (tipo : string).

#[global] Instance Exn_eq_dec : EqDecision Exn.
Proof. solve_decision. Defined.

(** One constructor per [print] of the class, with the values it formats. *)
Inductive Msg :=
| NoHayOperaciones
| RestauradoAnterior (filas : nat)
| RestauradoOriginal
| HistorialLimpiado
| SubsetsEliminados
| SubsetCreado (nombre : string) (filas : nat)
| HijoDe (parent : string)
| ExcluidasAgregadas (nombre_subset : string) (palabras : list string)
| SubsetVacio (nombre_subset : string)
| EliminadasPrincipal (filas quedan : nat)
| EliminadasPadre (filas : Z) (parent_name : string) (quedan : nat)
| SinEliminarPadre (parent_name : string).

#[global] Instance Msg_eq_dec : EqDecision Msg.
Proof. solve_decision. Defined.

Inductive Outcome (A : Type) :=
| Return (a : A)
| Raise (e : Exn).
Arguments Return {A} a.
Arguments Raise {A} e.

#[global] Instance Outcome_eq_dec {A} `{EqDecision A} : EqDecision (Outcome A).
Proof. solve_decision. Defined.

(** What a call leaves behind: how it ended, the manager, what it printed. *)
Record Run (A : Type) := MkRun {
  outcome : Outcome A;
  final : Manager;
  stdout : list Msg
}.
Arguments MkRun {A} _ _ _.
Arguments outcome {A} _.
Arguments final {A} _.
Arguments stdout {A} _.

#[global] Instance Run_eq_dec {A} `{EqDecision A} : EqDecision (Run A).
Proof. solve_decision. Defined.

Definition M (A : Type) : Type := Manager → Run A.

#[global] Instance M_ret : MRet M := λ A a self, MkRun (Return a) self [].

#[global] Instance M_bind : MBind M := λ A B f m self,
  match m self with
  | MkRun (Return a) self' out =>
      let r := f a self' in MkRun (outcome r) (final r) (out ++ stdout r)
  | MkRun (Raise e) self' out => MkRun (Raise e) self' out
  end.

Definition get : M Manager := λ self, MkRun (Return self) self [].
Definition raise {A} (e : Exn) : M A := λ self, MkRun (Raise e) self [].
Definition print (m : Msg) : M unit := λ self, MkRun (Return ()) self [m].

(** [try: body finally: cleanup] — the cleanup runs however the body ends;
    the body's outcome stands unless the cleanup itself raises. *)
Definition try_finally {A} (body : M A) (cleanup : M unit) : M A := λ self,
  let r := body self in
  let c := cleanup (final r) in
  match outcome c with
  | Return _ => MkRun (outcome r) (final c) (stdout r ++ stdout c)
  | Raise e => MkRun (Raise e) (final c) (stdout r ++ stdout c)
  end.

(** Assignments to the fields of [self]. *)
Definition set_df_principal (d : DataFrame) : M unit := λ self,
  MkRun (Return ())
    {| df_original := df_original self; df_principal := d;
       columna_id := columna_id self; subsets := subsets self;
       _historial_principal := _historial_principal self;
       attrs := attrs self; next_id := next_id self |} [].

Definition set_subsets (m : gmap string DataFrame) : M unit := λ self,
  MkRun (Return ())
    {| df_original := df_original self; df_principal := df_principal self;
       columna_id := columna_id self; subsets := m;
       _historial_principal := _historial_principal self;
       attrs := attrs self; next_id := next_id self |} [].

Definition set_historial (h : list DataFrame) : M unit := λ self,
  MkRun (Return ())
    {| df_original := df_original self; df_principal := df_principal self;
       columna_id := columna_id self; subsets := subsets self;
       _historial_principal := h;
       attrs := attrs self; next_id := next_id self |} [].

(** [self.subsets[nombre] = d] *)
Definition set_subset (nombre : string) (d : DataFrame) : M unit :=
  self ← get; set_subsets (<[nombre := d]> (subsets self)).

(** A new frame object with the given rows: it gets the next identity,
    which in a manager built by the class is the identity of no frame it
    holds and has no attribute recorded ([run_calls_frescas]). *)
Definition new_frame (rows : list Row) : M DataFrame := λ self,
  MkRun (Return (MkDF (next_id self) rows))
    {| df_original := df_original self; df_principal := df_principal self;
       columna_id := columna_id self; subsets := subsets self;
       _historial_principal := _historial_principal self;
       attrs := attrs self; next_id := S (next_id self) |} [].

(** [d.copy()]: the rows in a new object; instance attributes are not copied. *)
Definition copy (d : DataFrame) : M DataFrame := new_frame (df_rows d).

(** The attributes of an object. *)
Definition attrs_of (self : Manager) (d : DataFrame) : Attrs :=
  default no_attrs (attrs self !! df_id d).

Definition set_attrs (d : DataFrame) (a : Attrs) : M unit := λ self,
  MkRun (Return ())
    {| df_original := df_original self; df_principal := df_principal self;
       columna_id := columna_id self; subsets := subsets self;
       _historial_principal := _historial_principal self;
       attrs := <[df_id d := a]> (attrs self); next_id := next_id self |} [].

(** [d._parent = p] *)
Definition setattr_parent (d : DataFrame) (p : option string) : M unit :=
  self ← get;
  let a := attrs_of self d in
  set_attrs d {| _parent := Some p; _palabras_excluidas := _palabras_excluidas a;
                 _aplicado := _aplicado a |}.

(** [d._palabras_excluidas = ws] *)
Definition setattr_palabras_excluidas (d : DataFrame) (ws : list string) : M unit :=
  self ← get;
  let a := attrs_of self d in
  set_attrs d {| _parent := _parent a; _palabras_excluidas := Some ws;
                 _aplicado := _aplicado a |}.

(** [d._aplicado = b] *)
Definition setattr_aplicado (d : DataFrame) (b : bool) : M unit :=
  self ← get;
  let a := attrs_of self d in
  set_attrs d {| _parent := _parent a; _palabras_excluidas := _palabras_excluidas a;
                 _aplicado := Some b |}.

(** Truth value of an optional string: [None] and [''] are false. *)
Definition truthy (p : option string) : option string :=
  match p with
  | Some EmptyString => None
  | other => other
  end.

(** [hasattr(d, '_parent') and d._parent]: the parent's name when it counts. *)
Definition parent_of (self : Manager) (d : DataFrame) : option string :=
  match _parent (attrs_of self d) with
  | Some p => truthy p
  | None => None
  end.

(** [list.pop()]: the list without its last element, and that element. *)
Fixpoint pop {A} (l : list A) : option (list A * A) :=
  match l with
  | [] => None
  | x :: l' =>
      match pop l' with
      | None => Some ([], x)
      | Some (r, y) => Some (x :: r, y)
      end
  end.

(** The argument [palabras: Union[str, List[str]]]. *)
Inductive Palabras :=
| Palabra (s : string)
| ListaPalabras (l : list string).

(** ** The methods of [DataFilterManager] *)

(** [__init__(df, columna_id)]: two copies of [df], the store holding the
    working copy under ['principal'], an empty history. *)
Definition __init__ (df : list Row) (columna_id : string) : Manager :=
  {| df_original := MkDF 0 df;
     df_principal := MkDF 1 df;
     columna_id := columna_id;
     subsets := {[ "principal" := MkDF 1 df ]};
     _historial_principal := [];
     attrs := ∅;
     next_id := 2 |}.

Definition restaurar_anterior : M unit :=
  self ← get;
  match pop (_historial_principal self) with
  | None => print NoHayOperaciones
  | Some (resto, previo) =>
      set_historial resto;;
      set_df_principal previo;;
      self ← get;
      set_subset "principal" (df_principal self);;
      self ← get;
      print (RestauradoAnterior (len (df_principal self)))
  end.

Definition restaurar_todo : M unit :=
  self ← get;
  d ← copy (df_original self);
  set_df_principal d;;
  self ← get;
  set_subsets {[ "principal" := df_principal self ]};;
  set_historial [];;
  print RestauradoOriginal;;
  print HistorialLimpiado;;
  print SubsetsEliminados.

Definition agregar_excluidos (nombre_subset : string) (palabras : list string)
  : M unit :=
  self ← get;
  match subsets self !! nombre_subset with
  | None => raise (KeyError nombre_subset)
  | Some d =>
      match _palabras_excluidas (attrs_of self d) with
      | None => setattr_palabras_excluidas d []
      | Some _ => mret ()
      end;;
      self ← get;
      setattr_palabras_excluidas d
        (default [] (_palabras_excluidas (attrs_of self d)) ++ palabras);;
      print (ExcluidasAgregadas nombre_subset palabras)
  end.

(** [get_principal()]: a copy of the working table. *)
Definition get_principal : M DataFrame :=
  self ← get; copy (df_principal self).

(** [get_subset(nombre)]: a copy of the named entry of the store. *)
Definition get_subset (nombre : string) : M DataFrame :=
  self ← get;
  match subsets self !! nombre with
  | None => raise (KeyError nombre)
  | Some d => copy d
  end.

Section Engine.

(** [filtro_palabras(df, columna_descripcion, palabras, condicional,
    case_sensitive, match_exacto)] is not defined in the source file: it is
    a parameter.  It returns the rows of a new frame, or raises. *)
Variable filtro_palabras :
  list Row → string → Palabras → string → bool → bool → Exn + list Row.

Definition call_filtro (df : DataFrame) (columna : string) (palabras : Palabras)
    (condicional : string) (case_sensitive match_exacto : bool) : M DataFrame :=
  match filtro_palabras (df_rows df) columna palabras condicional
          case_sensitive match_exacto with
  | inl e => raise e
  | inr rows => new_frame rows
  end.

Definition filtrar_por_palabra (columna : string) (palabras : Palabras)
    (nombre : string) (condicional : string)
    (case_sensitive match_exacto usar_principal : bool)
    (parent : option string) : M DataFrame :=
  self ← get;
  if decide (is_Some (subsets self !! nombre)) then raise (ValueError nombre)
  else
    let df_origen :=
      if usar_principal then df_principal self
      else default (df_principal self) (subsets self !! "ultimo") in
    subset ← call_filtro df_origen columna palabras condicional
               case_sensitive match_exacto;
    set_subset nombre subset;;
    setattr_parent subset parent;;
    set_subset "ultimo" subset;;
    print (SubsetCreado nombre (len subset));;
    match truthy parent with
    | Some p => print (HijoDe p)
    | None => mret ()
    end;;
    mret subset.

Definition filtrar_subset (nombre_origen columna : string) (palabras : Palabras)
    (nombre : string) (condicional : string)
    (case_sensitive match_exacto : bool) : M DataFrame :=
  self ← get;
  match subsets self !! nombre_origen with
  | None => raise (KeyError nombre_origen)
  | Some origen =>
      let df_origen_guardado := df_principal self in
      set_df_principal origen;;
      try_finally
        (filtrar_por_palabra columna palabras nombre condicional
           case_sensitive match_exacto true (Some nombre_origen))
        (set_df_principal df_origen_guardado)
  end.

(** Step 2 of [aplicar_filtro]: the deletion in the parent subset. *)
Definition propagar (subset : DataFrame) : M unit :=
  self ← get;
  match parent_of self subset with
  | None => mret ()
  | Some parent_name =>
      match subsets self !! parent_name with
      | None => mret ()
      | Some padre =>
          parent_df_original ← copy padre;
          self ← get;
          nuevo ← new_frame
            (drop_lines_key (df_rows padre) (df_rows subset) (columna_id self));
          set_subset parent_name nuevo;;
          let filas_eliminadas :=
            (Z.of_nat (len parent_df_original) - Z.of_nat (len nuevo))%Z in
          if (0 <? filas_eliminadas)%Z
          then print (EliminadasPadre filas_eliminadas parent_name (len nuevo))
          else print (SinEliminarPadre parent_name)
      end
  end.

Definition aplicar_filtro (nombre_subset : string) (propagar_a_padre : bool)
  : M unit :=
  self ← get;
  match subsets self !! nombre_subset with
  | None => raise (KeyError nombre_subset)
  | Some subset =>
      if empty subset then print (SubsetVacio nombre_subset)
      else
        snapshot ← copy (df_principal self);
        set_historial (_historial_principal self ++ [snapshot]);;
        nuevo ← new_frame
          (drop_lines_key (df_rows (df_principal self)) (df_rows subset)
             (columna_id self));
        set_df_principal nuevo;;
        set_subset "principal" nuevo;;
        print (EliminadasPrincipal (len subset) (len nuevo));;
        (if propagar_a_padre then propagar subset else mret ());;
        self ← get;
        match subsets self !! nombre_subset with
        | None => raise (KeyError nombre_subset)
        | Some d => setattr_aplicado d true
        end
  end.

(** *** Sequences of calls *)

(** The calls a client can make on a manager. *)
Inductive Call :=
| CallRestaurarAnterior
| CallRestaurarTodo
| CallFiltrarPorPalabra (columna : string) (palabras : Palabras)
    (nombre : string) (condicional : string)
    (case_sensitive match_exacto usar_principal : bool) (parent : option string)
| CallAgregarExcluidos (nombre_subset : string) (palabras : list string)
| CallFiltrarSubset (nombre_origen columna : string) (palabras : Palabras)
    (nombre : string) (condicional : string) (case_sensitive match_exacto : bool)
| CallAplicarFiltro (nombre_subset : string) (propagar_a_padre : bool)
| CallGetPrincipal
| CallGetSubset (nombre : string).

(** The manager a call leaves, whether it returned or raised. *)
Definition exec (c : Call) (self : Manager) : Manager :=
  match c with
  | CallRestaurarAnterior => final (restaurar_anterior self)
  | CallRestaurarTodo => final (restaurar_todo self)
  | CallFiltrarPorPalabra columna palabras nombre condicional cs me up parent =>
      final (filtrar_por_palabra columna palabras nombre condicional cs me up
               parent self)
  | CallAgregarExcluidos nombre_subset palabras =>
      final (agregar_excluidos nombre_subset palabras self)
  | CallFiltrarSubset nombre_origen columna palabras nombre condicional cs me =>
      final (filtrar_subset nombre_origen columna palabras nombre condicional
               cs me self)
  | CallAplicarFiltro nombre_subset propagar_a_padre =>
      final (aplicar_filtro nombre_subset propagar_a_padre self)
  | CallGetPrincipal => final (get_principal self)
  | CallGetSubset nombre => final (get_subset nombre self)
  end.

(** Running a list of calls, whatever their outcomes. *)
Definition run_calls (calls : list Call) (self : Manager) : Manager :=
  foldl (λ s c, exec c s) self calls.

End Engine.

(** ** Word frequencies *)

(** The lines [ver_top_palabras] prints: the heading with [top_n] and the
    name shown, and the table ([df_top.to_string(index=False)]). *)
Inductive MsgTop :=
| TopEncabezado (top_n : Z) (nombre_mostrar : string)
| TopTabla (df_top : list Row).

#[global] Instance MsgTop_eq_dec : EqDecision MsgTop.
Proof. solve_decision. Defined.

(** What a call of [ver_top_palabras] leaves behind. *)
Record RunTop := MkRunTop {
  top_outcome : Outcome DataFrame;
  top_final : Manager;
  top_stdout : list MsgTop
}.

#[global] Instance RunTop_eq_dec : EqDecision RunTop.
Proof. solve_decision. Defined.

Section Analysis.

(** [top_palabras(df, columna_descripcion, top_n, excluir_palabras)] is not
    defined in the source file: it is a parameter.  It is handed the frame
    object, so it is a function of the rows of the frame, of the attributes
    the manager has set on it (the recorded exclusion words among them) and
    of its three other arguments.  It returns the rows of a new frame (the
    table of words), or raises. *)
Variable top_palabras :
  list Row → Attrs → string → Z → option (list string) → Exn + list Row.

(** [ver_top_palabras(nombre_subset, top_n, excluir_palabras)].  The name is
    an [Optional[str]]: [None] is a key no store has, and is formatted as
    ['None'] in the error. *)
Definition ver_top_palabras (nombre_subset : option string) (top_n : Z)
    (excluir_palabras : option (list string)) (self : Manager) : RunTop :=
  match nombre_subset with
  | None => MkRunTop (Raise (KeyError "None")) self []
  | Some nombre =>
      match subsets self !! nombre with
      | None => MkRunTop (Raise (KeyError nombre)) self []
      | Some df_analizar =>
          let nombre_mostrar := nombre in
          match top_palabras (df_rows df_analizar) (attrs_of self df_analizar)
                  "descripcion" top_n excluir_palabras with
          | inl e => MkRunTop (Raise e) self []
          | inr rows =>
              let r := new_frame rows self in
              MkRunTop (outcome r) (final r)
                [TopEncabezado top_n nombre_mostrar; TopTabla rows]
          end
      end
  end.

End Analysis.

(** ** A worked fixture *)

(** A filter to run the examples with: it keeps the rows whose text in
    [columna] contains one of the words ([condicional] other than ['AND']) or
    all of them (['AND']); a row without that column makes it raise.  The
    two flags are not consulted. *)
Definition contiene (s : string) (w : string) : bool :=
  bool_decide (is_Some (String.index 0 w s)).

Definition lista (palabras : Palabras) : list string :=
  match palabras with
  | Palabra w => [w]
  | ListaPalabras ws => ws
  end.

Definition coincide (columna : string) (palabras : Palabras) (condicional : string)
    (r : Row) : bool :=
  match r !! columna with
  | Some (VStr s) =>
      if bool_decide (condicional = "AND")
      then forallb (contiene s) (lista palabras)
      else existsb (contiene s) (lista palabras)
  | _ => false
  end.

Definition filtro_fixture (rows : list Row) (columna : string) (palabras : Palabras)
    (condicional : string) (case_sensitive match_exacto : bool) : Exn + list Row :=
  if forallb (λ r : Row, bool_decide (is_Some (r !! columna))) rows
  then inr (List.filter (coincide columna palabras condicional) rows)
  else inl (KeyError columna).

(** A row with identifier [i] and description [d]. *)
Definition fila (i : Z) (d : string) : Row :=
  {[ "id" := VInt i; "descripcion" := VStr d ]}.

(** Ten rows keyed 1..10; "x" occurs in rows 1, 3, 5 and "y" in row 3. *)
Definition diez : list Row :=
  [fila 1 "x a"; fila 2 "b"; fila 3 "x y"; fila 4 "c"; fila 5 "x e";
   fila 6 "f"; fila 7 "g"; fila 8 "h"; fila 9 "i"; fila 10 "j"].

(** The identifiers of the rows of a frame. *)
Definition ids (rows : list Row) : list (option Value) := key_values "id" rows.

(** The identifiers held under a name of the store. *)
Definition ids_of (self : Manager) (nombre : string) : option (list (option Value)) :=
  (λ d, ids (df_rows d)) <$> subsets self !! nombre.

(** The calls of the example of the specification: subset [A] of the rows
    with "x", subset [B] of the rows of [A] with "y", deletion of [B], undo. *)
Definition m_inicial : Manager := __init__ diez "id".

Definition m_A : Manager :=
  final (filtrar_por_palabra filtro_fixture "descripcion" (Palabra "x") "A" "OR"
           false false true None m_inicial).

Definition m_B : Manager :=
  final (filtrar_subset filtro_fixture "A" "descripcion" (Palabra "y") "B" "OR"
           false false m_A).

Definition m_B_eliminado : Manager := final (aplicar_filtro "B" true m_B).

Definition m_deshecho : Manager := final (restaurar_anterior m_B_eliminado).


(** The frames of [A] and [B] in these managers. *)
Definition marco_A : DataFrame :=
  MkDF 2 [fila 1 "x a"; fila 3 "x y"; fila 5 "x e"].

Definition marco_B : DataFrame := MkDF 3 [fila 3 "x y"].

(** A subset registered under the empty name, and [B] filtered from it. *)
Definition m_sin_nombre : Manager :=
  final (filtrar_por_palabra filtro_fixture "descripcion" (Palabra "x") EmptyString "OR"
           false false true None m_inicial).

Definition m_B_de_sin_nombre : Manager :=
  final (filtrar_subset filtro_fixture EmptyString "descripcion" (Palabra "y") "B" "OR"
           false false m_sin_nombre).

(** [B] filtered from ['principal']. *)
Definition m_B_de_principal : Manager :=
  final (filtrar_subset filtro_fixture "principal" "descripcion" (Palabra "y")
           "B" "OR" false false m_inicial).

(** A stand-in for the table of words, to run the examples with: when
    every row has the column it keeps the first [top_n] rows whose text has
    none of the words to exclude (those recorded on the frame and those of
    the argument), and raises otherwise. *)
Definition top_fixture (rows : list Row) (a : Attrs) (columna : string)
    (top_n : Z) (excluir_palabras : option (list string)) : Exn + list Row :=
  let excluidas :=
    default [] (_palabras_excluidas a) ++ default [] excluir_palabras in
  if forallb (λ r : Row, bool_decide (is_Some (r !! columna))) rows
  then inr (take (Z.to_nat top_n)
              (List.filter
                 (λ r, negb (coincide columna (ListaPalabras excluidas) "OR" r))
                 rows))
  else inl (KeyError columna).

(** A chain of three: [C] is filtered from [B], which is filtered from [A]. *)
Definition m_C : Manager :=
  final (filtrar_subset filtro_fixture "B" "descripcion" (Palabra "x") "C" "OR"
           false false m_B).

Definition marco_C : DataFrame := MkDF 4 [fila 3 "x y"].





(** ** Managers and stores named in the statements *)

(** The manager with another working table. *)
Definition with_df_principal (d : DataFrame) (self : Manager) : Manager :=
  final (set_df_principal d self).

(** The table [filtrar_por_palabra] filters. *)
Definition df_origen (usar_principal : bool) (self : Manager) : DataFrame :=
  if usar_principal then df_principal self
  else default (df_principal self) (subsets self !! "ultimo").

(** The manager after [filtrar_por_palabra] has registered the frame of
    [rows] under [nombre]: the new frame has the next identity. *)
Definition registrado (nombre : string) (parent : option string)
    (rows : list Row) (self : Manager) : Manager :=
  let subset := MkDF (next_id self) rows in
  {| df_original := df_original self; df_principal := df_principal self;
     columna_id := columna_id self;
     subsets := <["ultimo" := subset]> (<[nombre := subset]> (subsets self));
     _historial_principal := _historial_principal self;
     attrs :=
       <[next_id self :=
           {| _parent := Some parent;
              _palabras_excluidas :=
                _palabras_excluidas (default no_attrs (attrs self !! next_id self));
              _aplicado :=
                _aplicado (default no_attrs (attrs self !! next_id self)) |}]>
         (attrs self);
     next_id := S (next_id self) |}.

(** The store after the deletion in the parent: [parent] is the parent that
    counts, [id] the identity of the parent's new frame. *)
Definition subsets_propagados (parent : option string) (rows : list Row)
    (column_key : string) (id : nat) (m : gmap string DataFrame)
  : gmap string DataFrame :=
  match parent with
  | None => m
  | Some parent_name =>
      match m !! parent_name with
      | None => m
      | Some padre =>
          <[parent_name := MkDF id (drop_lines_key (df_rows padre) rows column_key)]> m
      end
  end.

(** The rows held under a name of the store. *)
Definition rows_of (self : Manager) (nombre : string) : option (list Row) :=
  df_rows <$> subsets self !! nombre.

(** The entry ['principal'] of the store has the rows of the working table. *)
Definition alias_principal (self : Manager) : Prop :=
  rows_of self "principal" = Some (df_rows (df_principal self)).



(** Every frame the manager holds, and every object with attributes, has an
    identity below [next_id]: the frames made by [new_frame] are new. *)
Definition known (n : nat) (d : DataFrame) : Prop := df_id d < n.

Definition identidades_frescas (self : Manager) : Prop :=
  known (next_id self) (df_original self) ∧
  known (next_id self) (df_principal self) ∧
  map_Forall (λ _ d, known (next_id self) d) (subsets self) ∧
  Forall (known (next_id self)) (_historial_principal self) ∧
  (∀ i, is_Some (attrs self !! i) → i < next_id self).

(** The attributes of a frame after words are added to its exclusions. *)
Definition con_excluidas (palabras : list string) (a : Attrs) : Attrs :=
  {| _parent := _parent a;
     _palabras_excluidas := Some (default [] (_palabras_excluidas a) ++ palabras);
     _aplicado := _aplicado a |}.


(** The principal table and the snapshots of the history only have rows of
    the original table, in its order. *)
Definition solo_quita (self : Manager) : Prop :=
  df_rows (df_principal self) `sublist_of` df_rows (df_original self) ∧
  Forall (λ d, df_rows d `sublist_of` df_rows (df_original self))
    (_historial_principal self).

(** * Properties *)

(** ** The history list and the key difference *)

Lemma pop_app {A} (l : list A) (x : A) : pop (l ++ [x]) = Some (l, x).
Proof.
  induction l as [|y l IH]; [reflexivity|].
  simpl. by rewrite IH.
Qed.

Lemma pop_None {A} (l : list A) : pop l = None ↔ l = [].
Proof.
  destruct l as [|x l]; [done|]. simpl.
  destruct (pop l) as [[r y]|]; done.
Qed.

Lemma pop_Some {A} (l r : list A) (x : A) : pop l = Some (r, x) → l = r ++ [x].
Proof.
  revert r. induction l as [|y l IH]; intros r; [done|]. simpl.
  destruct (pop l) as [[r' z]|] eqn:E.
  - intros [= <- <-]. by rewrite (IH r' eq_refl).
  - apply pop_None in E as ->. by intros [= <- <-].
Qed.

Lemma elem_of_drop_lines_key (r : Row) (df_target df_reference : list Row)
    (column_key : string) :
  r ∈ drop_lines_key df_target df_reference column_key ↔
  r ∈ df_target ∧ r !! column_key ∉ key_values column_key df_reference.
Proof. unfold drop_lines_key. rewrite list_elem_of_filter. tauto. Qed.

Lemma drop_lines_key_sublist (df_target df_reference : list Row) (column_key : string) :
  drop_lines_key df_target df_reference column_key `sublist_of` df_target.
Proof. apply sublist_filter. Qed.

Lemma drop_lines_key_idemp (df_target df_reference : list Row) (column_key : string) :
  drop_lines_key (drop_lines_key df_target df_reference column_key)
    df_reference column_key
  = drop_lines_key df_target df_reference column_key.
Proof.
  unfold drop_lines_key.
  induction df_target as [|r t IH]; [done|].
  rewrite filter_cons. case_decide as Hr; [|done].
  rewrite filter_cons. rewrite decide_True by done. by rewrite IH.
Qed.


Lemma empty_true (d : DataFrame) : empty d = true ↔ df_rows d = [].
Proof. unfold empty. by destruct (df_rows d). Qed.

Lemma empty_false (d : DataFrame) : empty d = false ↔ df_rows d ≠ [].
Proof. unfold empty. by destruct (df_rows d). Qed.

(** ** Running a method *)

(** Unfolds the monad and the assignments of a method; the operations on
    the store, the history and the rows stay folded. *)
Ltac run :=
  cbv beta iota zeta delta
    [restaurar_anterior restaurar_todo agregar_excluidos get_principal
     get_subset filtrar_por_palabra filtrar_subset aplicar_filtro propagar
     call_filtro try_finally set_subset setattr_parent setattr_aplicado
     setattr_palabras_excluidas copy new_frame set_attrs set_historial
     set_subsets set_df_principal print raise get mbind mret M_bind M_ret
     outcome final stdout df_original df_principal columna_id subsets
     _historial_principal attrs next_id].

(** Opens the record of a manager, in the goal and in the hypotheses. *)
Ltac open_manager self :=
  destruct self as [orig prin col subs hist atr nid];
  cbn [df_original df_principal columna_id subsets _historial_principal
       attrs next_id] in *.

Lemma restaurar_anterior_vacio (self : Manager) :
  _historial_principal self = [] →
  restaurar_anterior self = MkRun (Return ()) self [NoHayOperaciones].
Proof. intros H. open_manager self. subst. reflexivity. Qed.

Lemma restaurar_anterior_pop (self : Manager) (h : list DataFrame) (previo : DataFrame) :
  _historial_principal self = h ++ [previo] →
  restaurar_anterior self =
    MkRun (Return ())
      {| df_original := df_original self; df_principal := previo;
         columna_id := columna_id self;
         subsets := <["principal" := previo]> (subsets self);
         _historial_principal := h; attrs := attrs self;
         next_id := next_id self |}
      [RestauradoAnterior (len previo)].
Proof. intros H. open_manager self. run. rewrite H, pop_app. reflexivity. Qed.

Lemma restaurar_todo_run (self : Manager) :
  restaurar_todo self =
    MkRun (Return ())
      {| df_original := df_original self;
         df_principal := MkDF (next_id self) (df_rows (df_original self));
         columna_id := columna_id self;
         subsets := {[ "principal" := MkDF (next_id self) (df_rows (df_original self)) ]};
         _historial_principal := []; attrs := attrs self;
         next_id := S (next_id self) |}
      [RestauradoOriginal; HistorialLimpiado; SubsetsEliminados].
Proof. reflexivity. Qed.

Lemma aplicar_filtro_vacio (nombre_subset : string) (propagar_a_padre : bool)
    (self : Manager) (subset : DataFrame) :
  subsets self !! nombre_subset = Some subset → df_rows subset = [] →
  aplicar_filtro nombre_subset propagar_a_padre self
  = MkRun (Return ()) self [SubsetVacio nombre_subset].
Proof.
  intros H E. apply empty_true in E. open_manager self. run.
  rewrite H, E. reflexivity.
Qed.

Lemma aplicar_filtro_ausente (nombre_subset : string) (propagar_a_padre : bool)
    (self : Manager) :
  subsets self !! nombre_subset = None →
  aplicar_filtro nombre_subset propagar_a_padre self
  = MkRun (Raise (KeyError nombre_subset)) self [].
Proof. intros H. open_manager self. run. rewrite H. reflexivity. Qed.


Lemma subsets_propagados_is_Some (parent : option string) (rows : list Row)
    (column_key : string) (id : nat) (m : gmap string DataFrame) (nombre : string) :
  is_Some (m !! nombre) →
  is_Some (subsets_propagados parent rows column_key id m !! nombre).
Proof.
  intros H. unfold subsets_propagados.
  destruct parent as [p|]; [|done].
  destruct (m !! p) eqn:E; [|done].
  destruct (decide (p = nombre)) as [->|Hne].
  - rewrite lookup_insert_eq. by eexists.
  - by rewrite lookup_insert_ne.
Qed.

Lemma aplicar_filtro_run (nombre_subset : string) (propagar_a_padre : bool)
    (self : Manager) (subset : DataFrame) :
  subsets self !! nombre_subset = Some subset → df_rows subset ≠ [] →
  let r := aplicar_filtro nombre_subset propagar_a_padre self in
  let nuevo := MkDF (S (next_id self))
                 (drop_lines_key (df_rows (df_principal self)) (df_rows subset)
                    (columna_id self)) in
  outcome r = Return () ∧
  df_original (final r) = df_original self ∧
  columna_id (final r) = columna_id self ∧
  df_principal (final r) = nuevo ∧
  _historial_principal (final r)
    = _historial_principal self
      ++ [MkDF (next_id self) (df_rows (df_principal self))] ∧
  subsets (final r)
    = subsets_propagados
        (if propagar_a_padre then parent_of self subset else None)
        (df_rows subset) (columna_id self) (S (S (S (next_id self))))
        (<["principal" := nuevo]> (subsets self)).
Proof.
  intros H E. apply empty_false in E.
  pose proof (subsets_propagados_is_Some
    (if propagar_a_padre then parent_of self subset else None)
    (df_rows subset) (columna_id self) (S (S (S (next_id self))))
    (<["principal" := MkDF (S (next_id self))
                 (drop_lines_key (df_rows (df_principal self)) (df_rows subset)
                    (columna_id self))]> (subsets self)) nombre_subset) as HS.
  open_manager self. cbv zeta.
  assert (is_Some (<["principal" := MkDF (S nid)
            (drop_lines_key (df_rows prin) (df_rows subset) col)]> subs
          !! nombre_subset)) as Hp.
  { destruct (decide (nombre_subset = "principal")) as [->|Hne].
    - rewrite lookup_insert_eq. by eexists.
    - rewrite lookup_insert_ne by done. by eexists. }
  specialize (HS Hp). destruct HS as [d Hd].
  unfold subsets_propagados in *. run. rewrite H, E.
  destruct propagar_a_padre.
  - unfold parent_of, attrs_of in *.
    cbn [df_original df_principal columna_id subsets _historial_principal
         attrs next_id] in *.
    destruct (_parent (default no_attrs (atr !! df_id subset))) as [p|];
      [destruct (truthy p) as [parent_name|]|].
    + destruct (<["principal" := _]> subs !! parent_name) as [padre|] eqn:Ep.
      * destruct (_ <? _)%Z; run; rewrite Hd; repeat split; reflexivity.
      * rewrite Hd. repeat split; reflexivity.
    + rewrite Hd. repeat split; reflexivity.
    + rewrite Hd. repeat split; reflexivity.
  - rewrite Hd. repeat split; reflexivity.
Qed.

Lemma agregar_excluidos_frame (nombre_subset : string) (palabras : list string)
    (self : Manager) :
  let r := agregar_excluidos nombre_subset palabras self in
  df_original (final r) = df_original self ∧
  df_principal (final r) = df_principal self ∧
  columna_id (final r) = columna_id self ∧
  subsets (final r) = subsets self ∧
  _historial_principal (final r) = _historial_principal self.
Proof.
  open_manager self. cbv zeta. run.
  destruct (subs !! nombre_subset) as [d|]; [|by repeat split].
  unfold attrs_of.
  cbn [df_original df_principal columna_id subsets _historial_principal
       attrs next_id].
  destruct (_palabras_excluidas (default no_attrs (atr !! df_id d)));
    repeat split; reflexivity.
Qed.

Lemma get_principal_run (self : Manager) :
  get_principal self =
    MkRun (Return (MkDF (next_id self) (df_rows (df_principal self))))
      {| df_original := df_original self; df_principal := df_principal self;
         columna_id := columna_id self; subsets := subsets self;
         _historial_principal := _historial_principal self;
         attrs := attrs self; next_id := S (next_id self) |} [].
Proof. reflexivity. Qed.

Lemma get_subset_run (nombre : string) (self : Manager) :
  get_subset nombre self =
    match subsets self !! nombre with
    | None => MkRun (Raise (KeyError nombre)) self []
    | Some d =>
        MkRun (Return (MkDF (next_id self) (df_rows d)))
          {| df_original := df_original self; df_principal := df_principal self;
             columna_id := columna_id self; subsets := subsets self;
             _historial_principal := _historial_principal self;
             attrs := attrs self; next_id := S (next_id self) |} []
    end.
Proof.
  open_manager self. run. destruct (subs !! nombre); reflexivity.
Qed.


Section Creation.

Variable filtro_palabras :
  list Row → string → Palabras → string → bool → bool → Exn + list Row.

Lemma filtrar_por_palabra_existe (columna : string) (palabras : Palabras)
    (nombre condicional : string) (cs me up : bool) (parent : option string)
    (self : Manager) :
  is_Some (subsets self !! nombre) →
  filtrar_por_palabra filtro_palabras columna palabras nombre condicional
    cs me up parent self
  = MkRun (Raise (ValueError nombre)) self [].
Proof.
  intros H. open_manager self. run. rewrite decide_True by done. reflexivity.
Qed.

Lemma filtrar_por_palabra_nuevo (columna : string) (palabras : Palabras)
    (nombre condicional : string) (cs me up : bool) (parent : option string)
    (self : Manager) :
  subsets self !! nombre = None →
  filtrar_por_palabra filtro_palabras columna palabras nombre condicional
    cs me up parent self
  = match filtro_palabras (df_rows (df_origen up self)) columna palabras
            condicional cs me with
    | inl e => MkRun (Raise e) self []
    | inr rows =>
        MkRun (Return (MkDF (next_id self) rows))
          (registrado nombre parent rows self)
          (SubsetCreado nombre (length rows) ::
           match truthy parent with Some p => [HijoDe p] | None => [] end)
    end.
Proof.
  intros H. open_manager self. unfold df_origen, registrado. run.
  rewrite decide_False by (rewrite H; apply is_Some_None).
  destruct (filtro_palabras _ _ _ _ _ _) as [e|rows]; [reflexivity|].
  destruct (truthy parent); reflexivity.
Qed.

Lemma filtrar_subset_ausente (nombre_origen columna : string)
    (palabras : Palabras) (nombre condicional : string) (cs me : bool)
    (self : Manager) :
  subsets self !! nombre_origen = None →
  filtrar_subset filtro_palabras nombre_origen columna palabras nombre
    condicional cs me self
  = MkRun (Raise (KeyError nombre_origen)) self [].
Proof. intros H. open_manager self. run. rewrite H. reflexivity. Qed.

Lemma filtrar_subset_run (nombre_origen columna : string)
    (palabras : Palabras) (nombre condicional : string) (cs me : bool)
    (self : Manager) (origen : DataFrame) :
  subsets self !! nombre_origen = Some origen →
  filtrar_subset filtro_palabras nombre_origen columna palabras nombre
    condicional cs me self
  = let r := filtrar_por_palabra filtro_palabras columna palabras nombre
               condicional cs me true (Some nombre_origen)
               (with_df_principal origen self) in
    MkRun (outcome r) (with_df_principal (df_principal self) (final r))
      (stdout r).
Proof.
  intros H. open_manager self. unfold with_df_principal. run. rewrite H.
  destruct (decide _); [reflexivity|].
  destruct (filtro_palabras _ _ _ _ _ _) as [e|rows]; [reflexivity|].
  destruct (truthy (Some nombre_origen)); reflexivity.
Qed.

End Creation.

(** ** What each method leaves in the manager *)

(** Reduces the fields of a manager written out as a record. *)
Ltac fields :=
  cbn [outcome final stdout df_original df_principal columna_id subsets
       _historial_principal attrs next_id with_df_principal registrado
       set_df_principal].

Lemma restaurar_anterior_final (self : Manager) :
  final (restaurar_anterior self) = self ∨
  ∃ h previo, _historial_principal self = h ++ [previo] ∧
    final (restaurar_anterior self) =
      {| df_original := df_original self; df_principal := previo;
         columna_id := columna_id self;
         subsets := <["principal" := previo]> (subsets self);
         _historial_principal := h; attrs := attrs self;
         next_id := next_id self |}.
Proof.
  destruct (pop (_historial_principal self)) as [[h previo]|] eqn:E.
  - apply pop_Some in E. right. exists h, previo. split; [done|].
    by rewrite (restaurar_anterior_pop _ _ _ E).
  - apply pop_None in E. left. by rewrite (restaurar_anterior_vacio _ E).
Qed.

Lemma registrado_alias_principal (nombre : string) (parent : option string)
    (rows : list Row) (self : Manager) :
  subsets self !! nombre = None →
  alias_principal self → alias_principal (registrado nombre parent rows self).
Proof.
  unfold alias_principal, rows_of. intros Hn Hp. fields.
  rewrite lookup_insert_ne by done.
  rewrite lookup_insert_ne; [done|].
  intros ->. rewrite Hn in Hp. done.
Qed.

Lemma subsets_propagados_principal (parent : option string) (rows P : list Row)
    (column_key : string) (id id' : nat) (m : gmap string DataFrame) :
  df_rows <$>
    subsets_propagados parent rows column_key id
      (<["principal" := MkDF id' (drop_lines_key P rows column_key)]> m)
    !! "principal"
  = Some (drop_lines_key P rows column_key).
Proof.
  unfold subsets_propagados.
  destruct parent as [p|]; [|by rewrite lookup_insert_eq].
  destruct (decide (p = "principal")) as [->|Hne].
  - rewrite lookup_insert_eq, lookup_insert_eq. simpl.
    by rewrite drop_lines_key_idemp.
  - destruct (_ !! p); [rewrite lookup_insert_ne by done|];
      by rewrite lookup_insert_eq.
Qed.


Lemma subsets_propagados_padre (parent_name : string) (rows : list Row)
    (column_key : string) (id : nat) (m : gmap string DataFrame) (padre : DataFrame) :
  m !! parent_name = Some padre →
  subsets_propagados (Some parent_name) rows column_key id m !! parent_name
  = Some (MkDF id (drop_lines_key (df_rows padre) rows column_key)).
Proof.
  intros H. unfold subsets_propagados. rewrite H. apply lookup_insert_eq.
Qed.

(** ** New frames are new *)

Lemma known_mono (n m : nat) (d : DataFrame) : n ≤ m → known n d → known m d.
Proof. unfold known. lia. Qed.

Lemma known_map_mono (n m : nat) (s : gmap string DataFrame) :
  n ≤ m → map_Forall (λ _ d, known n d) s → map_Forall (λ _ d, known m d) s.
Proof.
  intros H Hs. apply (map_Forall_impl _ _ _ Hs). intros _ d. by apply known_mono.
Qed.

Lemma known_list_mono (n m : nat) (l : list DataFrame) :
  n ≤ m → Forall (known n) l → Forall (known m) l.
Proof.
  intros H Hl. apply (Forall_impl _ _ _ Hl). intros d. by apply known_mono.
Qed.

Lemma known_insert (n : nat) (s : gmap string DataFrame) (nombre : string)
    (d : DataFrame) :
  known n d → map_Forall (λ _ d, known n d) s →
  map_Forall (λ _ d, known n d) (<[nombre := d]> s).
Proof. intros Hd Hs. by apply map_Forall_insert_2. Qed.

Lemma attrs_insert_known (n : nat) (a : gmap nat Attrs) (i : nat) (x : Attrs) :
  i < n → (∀ j, is_Some (a !! j) → j < n) →
  ∀ j, is_Some (<[i := x]> a !! j) → j < n.
Proof.
  intros Hi Ha j. destruct (decide (i = j)) as [<-|Hne]; [done|].
  rewrite lookup_insert_ne by done. apply Ha.
Qed.

(** Closes the goals left by splitting [identidades_frescas] of a manager
    written out as a record. *)
Ltac frescas :=
  repeat match goal with
  | |- _ ∧ _ => split
  | |- known _ (MkDF _ _) => unfold known; cbn [df_id]; lia
  | |- known _ _ => eapply known_mono; [|eassumption]; lia
  | |- map_Forall _ (<[_ := _]> _) => apply known_insert
  | |- map_Forall _ {[_ := _]} => apply map_Forall_singleton
  | |- map_Forall _ _ => eapply known_map_mono; [|eassumption]; lia
  | |- Forall _ [] => constructor
  | |- Forall _ (_ ++ [_]) => apply Forall_app; split; [|apply Forall_singleton]
  | |- Forall _ _ => eapply known_list_mono; [|eassumption]; lia
  | |- ∀ j, is_Some (<[_ := _]> _ !! j) → _ => apply attrs_insert_known
  | |- ∀ j, is_Some (_ !! j) → j < _ =>
      let j := fresh "j" in let H := fresh "H" in
      intros j H;
      match goal with Ha : ∀ i, is_Some (_ !! i) → i < _ |- _ =>
        specialize (Ha j H); lia end
  | |- _ < _ => unfold known in *; cbn [df_id] in *; lia
  end.

Lemma init_identidades_frescas (df : list Row) (columna : string) :
  identidades_frescas (__init__ df columna).
Proof.
  unfold identidades_frescas, __init__. fields. frescas.
  intros i [a Ha]. by rewrite lookup_empty in Ha.
Qed.

Lemma restaurar_anterior_frescas (self : Manager) :
  identidades_frescas self → identidades_frescas (final (restaurar_anterior self)).
Proof.
  intros H.
  destruct (restaurar_anterior_final self) as [->|(h & previo & Hh & ->)]; [done|].
  destruct H as (Ho & Hp & Hs & Hl & Ha).
  rewrite Hh, Forall_app, Forall_singleton in Hl. destruct Hl as [Hl Hprevio].
  unfold identidades_frescas. fields. frescas.
Qed.

Lemma restaurar_todo_frescas (self : Manager) :
  identidades_frescas self → identidades_frescas (final (restaurar_todo self)).
Proof.
  intros (Ho & Hp & Hs & Hl & Ha). rewrite restaurar_todo_run.
  unfold identidades_frescas. fields. frescas.
Qed.

Lemma registrado_frescas (nombre : string) (parent : option string)
    (rows : list Row) (self : Manager) :
  identidades_frescas self →
  identidades_frescas (registrado nombre parent rows self).
Proof.
  intros (Ho & Hp & Hs & Hl & Ha). unfold identidades_frescas. fields. frescas.
Qed.

Lemma get_principal_frescas (self : Manager) :
  identidades_frescas self → identidades_frescas (final (get_principal self)).
Proof.
  intros (Ho & Hp & Hs & Hl & Ha). rewrite get_principal_run.
  unfold identidades_frescas. fields. frescas.
Qed.

Lemma get_subset_frescas (nombre : string) (self : Manager) :
  identidades_frescas self → identidades_frescas (final (get_subset nombre self)).
Proof.
  intros H. rewrite get_subset_run. destruct (subsets self !! nombre); [|done].
  destruct H as (Ho & Hp & Hs & Hl & Ha).
  unfold identidades_frescas. fields. frescas.
Qed.

(** Uses that the frame [d] found under a name of the store of the goal is
    known, then closes the goal. *)
Ltac frescas_con Hd :=
  unfold identidades_frescas; fields;
  match goal with
  | |- _ ∧ _ ∧ map_Forall ?P ?m ∧ _ =>
      let Hm := fresh "Hm" in let Hk := fresh "Hk" in
      assert (map_Forall P m) as Hm by frescas;
      pose proof (Hm _ _ Hd) as Hk; cbn beta in Hk
  end;
  frescas.

Lemma agregar_excluidos_frescas (nombre_subset : string) (palabras : list string)
    (self : Manager) :
  identidades_frescas self →
  identidades_frescas (final (agregar_excluidos nombre_subset palabras self)).
Proof.
  unfold identidades_frescas at 1. open_manager self.
  intros (Ho & Hp & Hs & Hl & Ha). run.
  destruct (subs !! nombre_subset) as [d|] eqn:Hd;
    [|unfold identidades_frescas; fields; frescas].
  unfold attrs_of.
  cbn [df_original df_principal columna_id subsets _historial_principal
       attrs next_id].
  destruct (_palabras_excluidas (default no_attrs (atr !! df_id d)));
    frescas_con Hd.
Qed.

Lemma aplicar_filtro_frescas (nombre_subset : string) (propagar_a_padre : bool)
    (self : Manager) :
  identidades_frescas self →
  identidades_frescas (final (aplicar_filtro nombre_subset propagar_a_padre self)).
Proof.
  intros H.
  destruct (subsets self !! nombre_subset) as [subset|] eqn:Hn;
    [|by rewrite aplicar_filtro_ausente].
  destruct (empty subset) eqn:E.
  { apply empty_true in E. by rewrite (aplicar_filtro_vacio _ _ _ _ Hn E). }
  revert H. unfold identidades_frescas at 1. open_manager self.
  intros (Ho & Hp & Hs & Hl & Ha).
  assert (is_Some (<["principal" := MkDF (S nid)
            (drop_lines_key (df_rows prin) (df_rows subset) col)]> subs
          !! nombre_subset)) as [d1 Hd1].
  { destruct (decide (nombre_subset = "principal")) as [->|Hne].
    - rewrite lookup_insert_eq. by eexists.
    - rewrite lookup_insert_ne by done. by eexists. }
  run. rewrite Hn, E.
  destruct propagar_a_padre.
  - unfold parent_of, attrs_of.
    cbn [df_original df_principal columna_id subsets _historial_principal
         attrs next_id].
    destruct (_parent (default no_attrs (atr !! df_id subset))) as [p|];
      [destruct (truthy p) as [parent_name|]|].
    + destruct (<["principal" := _]> subs !! parent_name) as [padre|] eqn:Ep.
      * destruct (_ <? _)%Z; run;
          (destruct (<[parent_name := _]> _ !! nombre_subset) as [d|] eqn:Hd;
           [frescas_con Hd|unfold identidades_frescas; fields; frescas]).
      * rewrite Hd1. frescas_con Hd1.
    + rewrite Hd1. frescas_con Hd1.
    + rewrite Hd1. frescas_con Hd1.
  - rewrite Hd1. frescas_con Hd1.
Qed.

(** ** Exclusion words and the mark of a deletion *)


Lemma agregar_excluidos_run (nombre_subset : string) (palabras : list string)
    (self : Manager) (d : DataFrame) :
  subsets self !! nombre_subset = Some d →
  agregar_excluidos nombre_subset palabras self
  = MkRun (Return ())
      {| df_original := df_original self; df_principal := df_principal self;
         columna_id := columna_id self; subsets := subsets self;
         _historial_principal := _historial_principal self;
         attrs := <[df_id d := con_excluidas palabras (attrs_of self d)]>
                    (attrs self);
         next_id := next_id self |}
      [ExcluidasAgregadas nombre_subset palabras].
Proof.
  intros H. open_manager self. unfold con_excluidas. run. rewrite H.
  unfold attrs_of.
  cbn [df_original df_principal columna_id subsets _historial_principal
       attrs next_id].
  destruct (atr !! df_id d) as [[p [ws|] ap]|] eqn:Ea;
    cbn [default from_option id no_attrs _palabras_excluidas _parent _aplicado];
    run; rewrite ?Ea, ?lookup_insert_eq, ?insert_insert_eq;
    cbn [default from_option id _palabras_excluidas _parent _aplicado app];
    reflexivity.
Qed.


(** ** When the entry ['principal'] is the principal table itself *)




Section Claims.

Variable filtro_palabras :
  list Row → string → Palabras → string → bool → bool → Exn + list Row.

Lemma filtrar_subset_existe (nombre_origen columna : string)
    (palabras : Palabras) (nombre condicional : string) (cs me : bool)
    (self : Manager) :
  is_Some (subsets self !! nombre_origen) →
  is_Some (subsets self !! nombre) →
  filtrar_subset filtro_palabras nombre_origen columna palabras nombre
    condicional cs me self
  = MkRun (Raise (ValueError nombre)) self [].
Proof.
  intros [origen Ho] Hn.
  rewrite (filtrar_subset_run _ _ _ _ _ _ _ _ _ _ Ho). cbv zeta.
  rewrite filtrar_por_palabra_existe by (by destruct self).
  by destruct self.
Qed.

Lemma filtrar_subset_nuevo (nombre_origen columna : string)
    (palabras : Palabras) (nombre condicional : string) (cs me : bool)
    (self : Manager) (origen : DataFrame) :
  subsets self !! nombre_origen = Some origen →
  subsets self !! nombre = None →
  filtrar_subset filtro_palabras nombre_origen columna palabras nombre
    condicional cs me self
  = match filtro_palabras (df_rows origen) columna palabras condicional cs me with
    | inl e => MkRun (Raise e) self []
    | inr rows =>
        MkRun (Return (MkDF (next_id self) rows))
          (registrado nombre (Some nombre_origen) rows self)
          (SubsetCreado nombre (length rows) ::
           match truthy (Some nombre_origen) with
           | Some p => [HijoDe p]
           | None => []
           end)
    end.
Proof.
  intros Ho Hn.
  rewrite (filtrar_subset_run _ _ _ _ _ _ _ _ _ _ Ho). cbv zeta.
  rewrite filtrar_por_palabra_nuevo by (by destruct self).
  destruct self. unfold df_origen. fields.
  by destruct (filtro_palabras _ _ _ _ _ _).
Qed.

Lemma exec_invariantes (c : Call) (self : Manager) :
  df_original (exec filtro_palabras c self) = df_original self ∧
  (alias_principal self → alias_principal (exec filtro_palabras c self)).
Proof.
  destruct c as [| |columna palabras nombre condicional cs me up parent
                 |nombre_subset palabras
                 |nombre_origen columna palabras nombre condicional cs me
                 |nombre_subset propagar_a_padre| |nombre];
    cbn [exec].
  - destruct (restaurar_anterior_final self) as [->|(h & previo & _ & ->)];
      [done|]. split; [done|]. intros _.
    unfold alias_principal, rows_of. fields. by rewrite lookup_insert_eq.
  - rewrite restaurar_todo_run. split; [done|]. intros _.
    unfold alias_principal, rows_of. fields. by rewrite lookup_singleton_eq.
  - destruct (subsets self !! nombre) as [d|] eqn:Hn.
    + by rewrite filtrar_por_palabra_existe by (by rewrite Hn).
    + rewrite filtrar_por_palabra_nuevo by done.
      destruct (filtro_palabras _ _ _ _ _ _) as [e|rows]; [done|].
      split; [done|]. by apply registrado_alias_principal.
  - destruct (agregar_excluidos_frame nombre_subset palabras self)
      as (Ho & Hp & _ & Hs & _).
    split; [done|]. unfold alias_principal, rows_of. by rewrite Hp, Hs.
  - destruct (subsets self !! nombre_origen) as [origen|] eqn:Ho.
    + destruct (subsets self !! nombre) as [d|] eqn:Hn.
      * by rewrite filtrar_subset_existe by (by rewrite ?Ho, ?Hn).
      * rewrite (filtrar_subset_nuevo _ _ _ _ _ _ _ _ _ Ho Hn).
        destruct (filtro_palabras _ _ _ _ _ _) as [e|rows]; [done|].
        split; [done|]. by apply registrado_alias_principal.
    + by rewrite filtrar_subset_ausente.
  - destruct (subsets self !! nombre_subset) as [subset|] eqn:Hn.
    + destruct (df_rows subset) as [|r rs] eqn:Hr.
      * by rewrite (aplicar_filtro_vacio _ _ _ _ Hn Hr).
      * destruct (aplicar_filtro_run nombre_subset propagar_a_padre self
                    subset Hn) as (_ & Ho & _ & Hp & _ & Hs);
          [by rewrite Hr|].
        split; [done|]. intros _. unfold alias_principal, rows_of.
        rewrite Hs, Hp. apply subsets_propagados_principal.
    + by rewrite aplicar_filtro_ausente.
  - by rewrite get_principal_run.
  - rewrite get_subset_run. by destruct (subsets self !! nombre).
Qed.

Lemma run_calls_invariantes (calls : list Call) (self : Manager) :
  df_original (run_calls filtro_palabras calls self) = df_original self ∧
  (alias_principal self →
   alias_principal (run_calls filtro_palabras calls self)).
Proof.
  revert self. induction calls as [|c calls IH]; intros self; [done|].
  unfold run_calls in *. cbn [foldl].
  destruct (IH (exec filtro_palabras c self)) as [Ho Ha].
  destruct (exec_invariantes c self) as [Ho' Ha'].
  split; [congruence|auto].
Qed.

Lemma init_alias_principal (df : list Row) (columna : string) :
  alias_principal (__init__ df columna).
Proof. unfold alias_principal, rows_of, __init__. fields. by rewrite lookup_singleton_eq. Qed.


Lemma exec_frescas (c : Call) (self : Manager) :
  identidades_frescas self → identidades_frescas (exec filtro_palabras c self).
Proof.
  intros H.
  destruct c as [| |columna palabras nombre condicional cs me up parent
                 |nombre_subset palabras
                 |nombre_origen columna palabras nombre condicional cs me
                 |nombre_subset propagar_a_padre| |nombre];
    cbn [exec].
  - by apply restaurar_anterior_frescas.
  - by apply restaurar_todo_frescas.
  - destruct (subsets self !! nombre) as [d|] eqn:Hn.
    + by rewrite filtrar_por_palabra_existe by (by rewrite Hn).
    + rewrite filtrar_por_palabra_nuevo by done.
      destruct (filtro_palabras _ _ _ _ _ _) as [e|rows]; [done|].
      by apply registrado_frescas.
  - by apply agregar_excluidos_frescas.
  - destruct (subsets self !! nombre_origen) as [origen|] eqn:Ho.
    + destruct (subsets self !! nombre) as [d|] eqn:Hn.
      * by rewrite filtrar_subset_existe by (by rewrite ?Ho, ?Hn).
      * rewrite (filtrar_subset_nuevo _ _ _ _ _ _ _ _ _ Ho Hn).
        destruct (filtro_palabras _ _ _ _ _ _) as [e|rows]; [done|].
        by apply registrado_frescas.
    + by rewrite filtrar_subset_ausente.
  - by apply aplicar_filtro_frescas.
  - by apply get_principal_frescas.
  - by apply get_subset_frescas.
Qed.



(** In every manager the class builds, the identity the next frame gets is
    the identity of no frame of the manager, and no attribute is recorded
    for it. *)
Lemma run_calls_frescas (df : list Row) (columna : string) (calls : list Call) :
  identidades_frescas (run_calls filtro_palabras calls (__init__ df columna)).
Proof.
  generalize (init_identidades_frescas df columna).
  generalize (__init__ df columna).
  induction calls as [|c calls IH]; intros self H; [done|].
  unfold run_calls in *. cbn [foldl]. apply IH. by apply exec_frescas.
Qed.

(** ** Creation under a name of the store *)

Lemma filtrar_por_palabra_registra (columna : string) (palabras : Palabras)
    (nombre condicional : string) (cs me up : bool) (parent : option string)
    (self : Manager) (B : DataFrame) :
  outcome (filtrar_por_palabra filtro_palabras columna palabras nombre
             condicional cs me up parent self) = Return B →
  subsets self !! nombre = None ∧
  filtro_palabras (df_rows (df_origen up self)) columna palabras condicional
    cs me = inr (df_rows B) ∧
  B = MkDF (next_id self) (df_rows B) ∧
  final (filtrar_por_palabra filtro_palabras columna palabras nombre
           condicional cs me up parent self)
  = registrado nombre parent (df_rows B) self.
Proof.
  destruct (subsets self !! nombre) as [d|] eqn:Hn.
  - by rewrite filtrar_por_palabra_existe by (by rewrite Hn).
  - rewrite filtrar_por_palabra_nuevo by done.
    destruct (filtro_palabras _ _ _ _ _ _) as [e|rows]; [done|].
    fields. by intros [= <-].
Qed.


Lemma registrado_lookup_nombre (nombre : string) (parent : option string)
    (rows : list Row) (self : Manager) :
  subsets (registrado nombre parent rows self) !! nombre
  = Some (MkDF (next_id self) rows).
Proof.
  fields. destruct (decide (nombre = "ultimo")) as [->|Hne].
  - by rewrite lookup_insert_eq.
  - by rewrite lookup_insert_ne, lookup_insert_eq.
Qed.




(** ** The claims *)



(** C3.  When the history is not empty, [restaurar_anterior] returns, takes
    the last snapshot off the history and makes it the principal table and
    the entry ['principal'] of the store; every other entry of the store and
    every attribute stay as they were.  In particular, when the manager is
    the one left by an [aplicar_filtro] that has deleted in the parent
    subset, the parent still has its rows without those of the subset. *)
Theorem restaurar_anterior_solo_principal (self : Manager)
    (h : list DataFrame) (previo : DataFrame) :
  _historial_principal self = h ++ [previo] →
  let r := restaurar_anterior self in
  outcome r = Return () ∧
  df_principal (final r) = previo ∧
  _historial_principal (final r) = h ∧
  subsets (final r) = <["principal" := previo]> (subsets self) ∧
  (∀ nombre, nombre ≠ "principal" →
     subsets (final r) !! nombre = subsets self !! nombre) ∧
  attrs (final r) = attrs self ∧
  df_original (final r) = df_original self ∧
  (∀ antes nombre_subset subset parent_name padre,
     self = final (aplicar_filtro nombre_subset true antes) →
     subsets antes !! nombre_subset = Some subset →
     df_rows subset ≠ [] →
     parent_of antes subset = Some parent_name →
     parent_name ≠ "principal" →
     subsets antes !! parent_name = Some padre →
     rows_of (final r) parent_name
     = Some (drop_lines_key (df_rows padre) (df_rows subset) (columna_id antes))).
Proof.
  intros Hh. cbv zeta. rewrite (restaurar_anterior_pop _ _ _ Hh). fields.
  repeat (split; [done|]).
  split; [by intros nombre Hne; rewrite lookup_insert_ne|].
  repeat (split; [done|]).
  intros antes nombre_subset subset parent_name padre -> Hn Hnv Hpar Hne Hp.
  destruct (aplicar_filtro_run nombre_subset true antes subset Hn Hnv)
    as (_ & _ & _ & _ & _ & Hs).
  unfold rows_of. fields. rewrite lookup_insert_ne by done.
  rewrite Hs, Hpar.
  erewrite subsets_propagados_padre; [done|].
  by rewrite lookup_insert_ne.
Qed.


(** ['principal'] is a name of the store of every manager the class builds,
    so a creation under it raises in each of them. *)
Lemma crear_principal_siempre_falla (df : list Row) (columna_id : string)
    (calls : list Call) (columna : string) (palabras : Palabras)
    (condicional : string) (cs me up : bool) (parent : option string) :
  let self := run_calls filtro_palabras calls (__init__ df columna_id) in
  filtrar_por_palabra filtro_palabras columna palabras "principal" condicional
    cs me up parent self
  = MkRun (Raise (ValueError "principal")) self [].
Proof.
  cbv zeta. apply filtrar_por_palabra_existe.
  destruct (run_calls_invariantes calls (__init__ df columna_id)) as [_ Ha].
  specialize (Ha (init_alias_principal df columna_id)).
  unfold alias_principal, rows_of in Ha.
  by destruct (subsets _ !! "principal").
Qed.

(** A name whose creation has returned is a name of the store. *)
Lemma creado_queda_registrado (columna : string) (palabras : Palabras)
    (nombre condicional : string) (cs me up : bool) (parent : option string)
    (self : Manager) (B : DataFrame) :
  outcome (filtrar_por_palabra filtro_palabras columna palabras nombre
             condicional cs me up parent self) = Return B →
  subsets (final (filtrar_por_palabra filtro_palabras columna palabras nombre
                    condicional cs me up parent self)) !! nombre = Some B.
Proof.
  intros HB.
  destruct (filtrar_por_palabra_registra _ _ _ _ _ _ _ _ _ _ HB)
    as (_ & _ & HBid & ->).
  by rewrite registrado_lookup_nombre, <- HBid.
Qed.

(** C5.  When [nombre] is already a name of the store, [filtrar_por_palabra]
    raises [ValueError] and leaves the whole manager (store, principal
    table, history) as it was; [filtrar_subset] leaves the manager as it was
    too, and raises [ValueError] when its source exists ([KeyError] when it
    does not). *)
Theorem nombre_repetido (self : Manager) (columna : string)
    (palabras : Palabras) (nombre condicional : string) (cs me up : bool)
    (parent : option string) :
  is_Some (subsets self !! nombre) →
  filtrar_por_palabra filtro_palabras columna palabras nombre condicional
    cs me up parent self
  = MkRun (Raise (ValueError nombre)) self [] ∧
  (∀ nombre_origen,
     let r := filtrar_subset filtro_palabras nombre_origen columna palabras
                nombre condicional cs me self in
     final r = self ∧
     (is_Some (subsets self !! nombre_origen) →
        outcome r = Raise (ValueError nombre)) ∧
     (subsets self !! nombre_origen = None →
        outcome r = Raise (KeyError nombre_origen))).
Proof.
  intros Hn. split; [by apply filtrar_por_palabra_existe|].
  intros nombre_origen. cbv zeta.
  destruct (subsets self !! nombre_origen) as [origen|] eqn:Ho.
  - rewrite filtrar_subset_existe by (by rewrite ?Ho). by fields.
  - rewrite filtrar_subset_ausente by done. by fields.
Qed.


(** C7.  However [filtrar_subset] ends (it returns, the source is missing,
    the name is taken, the filter raises), the principal table of the
    manager it leaves is the one it found.  When the source exists, the body
    did run with the source as principal table, and the assignment of the
    [finally] has put the saved table back. *)
Theorem filtrar_subset_restaura_principal (self : Manager)
    (nombre_origen columna : string) (palabras : Palabras)
    (nombre condicional : string) (cs me : bool) :
  let r := filtrar_subset filtro_palabras nombre_origen columna palabras
             nombre condicional cs me self in
  df_principal (final r) = df_principal self ∧
  (∀ origen, subsets self !! nombre_origen = Some origen →
     let cuerpo := filtrar_por_palabra filtro_palabras columna palabras
                     nombre condicional cs me true (Some nombre_origen)
                     (with_df_principal origen self) in
     outcome r = outcome cuerpo ∧
     df_principal (final cuerpo) = origen ∧
     final r = with_df_principal (df_principal self) (final cuerpo)).
Proof.
  cbv zeta. split.
  - destruct (subsets self !! nombre_origen) as [origen|] eqn:Ho.
    + by rewrite (filtrar_subset_run _ _ _ _ _ _ _ _ _ _ Ho).
    + by rewrite filtrar_subset_ausente.
  - intros origen Ho.
    rewrite (filtrar_subset_run _ _ _ _ _ _ _ _ _ _ Ho). cbv zeta. fields.
    repeat split.
    destruct (subsets self !! nombre) as [d|] eqn:Hn.
    + by rewrite filtrar_por_palabra_existe by (fields; by rewrite Hn).
    + rewrite filtrar_por_palabra_nuevo by (by fields).
      by destruct (filtro_palabras _ _ _ _ _ _).
Qed.

(** C8.  After any list of calls on a manager built from [df],
    [restaurar_todo] returns and leaves a principal table with the rows of
    [df] (the rows of [df_original]), a store whose only entry is
    ['principal'] with that table, and an empty history. *)
Theorem restaurar_todo_original (df : list Row) (columna : string)
    (calls : list Call) :
  let self := run_calls filtro_palabras calls (__init__ df columna) in
  let r := restaurar_todo self in
  outcome r = Return () ∧
  df_rows (df_principal (final r)) = df ∧
  df_rows (df_principal (final r)) = df_rows (df_original (final r)) ∧
  subsets (final r) = {[ "principal" := df_principal (final r) ]} ∧
  _historial_principal (final r) = [].
Proof.
  cbv zeta. rewrite restaurar_todo_run. fields. cbn [df_rows].
  destruct (run_calls_invariantes calls (__init__ df columna)) as [-> _].
  done.
Qed.

(** C9.  With an empty history [restaurar_anterior] returns, prints that
    there is nothing to undo, and leaves the whole manager as it was. *)
Theorem restaurar_anterior_sin_historial (self : Manager) :
  _historial_principal self = [] →
  restaurar_anterior self = MkRun (Return ()) self [NoHayOperaciones].
Proof. intros H. open_manager self. subst. reflexivity. Qed.


End Claims.

(** ** The claims on the fixture *)

(** Splits a conjunction of closed equations and decides each by
    evaluation. *)
Ltac by_computation :=
  repeat match goal with |- _ ∧ _ => split end;
  apply (bool_decide_eq_true_1 _); vm_compute; reflexivity.

(** The example of the specification: deleting [B] leaves nine rows in the
    principal table and rows 1 and 5 in [A]; undoing gives the ten rows back
    and leaves [A] with rows 1 and 5. *)
Example ejemplo_eliminar :
  ids_of m_A "A" = Some [Some (VInt 1); Some (VInt 3); Some (VInt 5)] ∧
  ids_of m_B "B" = Some [Some (VInt 3)] ∧
  ids (df_rows (df_principal m_B_eliminado))
  = [Some (VInt 1); Some (VInt 2); Some (VInt 4); Some (VInt 5); Some (VInt 6);
     Some (VInt 7); Some (VInt 8); Some (VInt 9); Some (VInt 10)] ∧
  ids_of m_B_eliminado "A" = Some [Some (VInt 1); Some (VInt 5)].
Proof. by_computation. Qed.

Example ejemplo_deshacer :
  df_rows (df_principal m_deshecho) = diez ∧
  ids_of m_deshecho "A" = Some [Some (VInt 1); Some (VInt 5)].
Proof. by_computation. Qed.



(** The two other names left out of C1 as amended.  A parent whose name is
    the empty string does not count as a parent, so nothing is deleted in
    it; and the entry ['principal'] follows the principal table whether the
    deletion propagates or not. *)
Example cascada_desde_sin_nombre :
  ids_of m_B_de_sin_nombre EmptyString = Some [Some (VInt 1); Some (VInt 3); Some (VInt 5)] ∧
  ids_of m_B_de_sin_nombre "B" = Some [Some (VInt 3)] ∧
  ids_of (final (aplicar_filtro "B" true m_B_de_sin_nombre)) EmptyString
  = Some [Some (VInt 1); Some (VInt 3); Some (VInt 5)].
Proof. by_computation. Qed.

Example cascada_desde_principal :
  rows_of m_B_de_principal "principal" = Some diez ∧
  ids_of m_B_de_principal "B" = Some [Some (VInt 3)] ∧
  ids_of (final (aplicar_filtro "B" false m_B_de_principal)) "principal"
  = Some [Some (VInt 1); Some (VInt 2); Some (VInt 4); Some (VInt 5);
          Some (VInt 6); Some (VInt 7); Some (VInt 8); Some (VInt 9);
          Some (VInt 10)].
Proof. by_computation. Qed.


Lemma restaurar_anterior_solo_principal_witness :
  _historial_principal m_B_eliminado = [] ++ [MkDF 4 diez] ∧
  df_principal (final (restaurar_anterior m_B_eliminado)) = MkDF 4 diez ∧
  subsets (final (restaurar_anterior m_B_eliminado)) !! "A"
  = subsets m_B_eliminado !! "A" ∧
  rows_of (final (restaurar_anterior m_B_eliminado)) "A"
  = Some (drop_lines_key (df_rows marco_A) (df_rows marco_B) "id").
Proof.
  assert (_historial_principal m_B_eliminado = [] ++ [MkDF 4 diez]) as H
    by by_computation.
  split; [exact H|].
  destruct (restaurar_anterior_solo_principal m_B_eliminado [] (MkDF 4 diez) H)
    as (_ & Hp & _ & _ & Hs & _ & _ & Hpadre).
  split; [exact Hp|]. split; [apply Hs; discriminate|].
  apply (Hpadre m_B "B" marco_B "A" marco_A).
  - reflexivity.
  - by_computation.
  - discriminate.
  - by_computation.
  - discriminate.
  - by_computation.
Defined.



Lemma nombre_repetido_witness :
  is_Some (subsets m_A !! "A") ∧
  filtrar_por_palabra filtro_fixture "descripcion" (Palabra "y") "A"
    "OR" false false true None m_A
  = MkRun (Raise (ValueError "A")) m_A [].
Proof.
  assert (is_Some (subsets m_A !! "A")) as H
    by (exists marco_A; by_computation).
  split; [exact H|].
  exact (proj1 (nombre_repetido filtro_fixture m_A "descripcion" (Palabra "y")
                  "A" "OR" false false true None H)).
Defined.


(** The second deletion of the same subset: no row of the principal table
    is removed, and the history still grows by one. *)
Example aplicar_filtro_dos_veces :
  length (df_rows (df_principal m_B_eliminado)) = 9 ∧
  length (_historial_principal m_B_eliminado) = 1 ∧
  length (df_rows (df_principal (final (aplicar_filtro "B" true m_B_eliminado))))
  = 9 ∧
  length (_historial_principal (final (aplicar_filtro "B" true m_B_eliminado)))
  = 2.
Proof. by_computation. Qed.

Lemma restaurar_anterior_sin_historial_witness :
  _historial_principal m_inicial = [] ∧
  restaurar_anterior m_inicial = MkRun (Return ()) m_inicial [NoHayOperaciones].
Proof.
  split; [reflexivity|].
  exact (restaurar_anterior_sin_historial m_inicial eq_refl).
Defined.

Lemma filtrar_subset_restaura_principal_witness :
  subsets m_A !! "A" = Some marco_A ∧
  df_principal m_B = df_principal m_A ∧
  df_principal
    (final (filtrar_por_palabra filtro_fixture "descripcion" (Palabra "y") "B"
              "OR" false false true (Some "A") (with_df_principal marco_A m_A)))
  = marco_A.
Proof.
  assert (subsets m_A !! "A" = Some marco_A) as H by by_computation.
  split; [exact H|].
  destruct (filtrar_subset_restaura_principal filtro_fixture m_A "A"
              "descripcion" (Palabra "y") "B" "OR" false false) as [Hp Hc].
  split; [exact Hp|].
  destruct (Hc marco_A H) as (_ & Ho & _). exact Ho.
Defined.

(** The outcomes of [filtrar_subset] other than a return: a taken name, a
    missing source, a filter that raises.  The principal table is the same
    frame after each. *)
Example filtrar_subset_excepciones :
  filtrar_subset filtro_fixture "A" "descripcion" (Palabra "y") "A" "OR"
    false false m_A = MkRun (Raise (ValueError "A")) m_A [] ∧
  filtrar_subset filtro_fixture "Z" "descripcion" (Palabra "y") "B" "OR"
    false false m_A = MkRun (Raise (KeyError "Z")) m_A [] ∧
  filtrar_subset filtro_fixture "A" "precio" (Palabra "y") "B" "OR"
    false false m_A = MkRun (Raise (KeyError "precio")) m_A [].
Proof. by_computation. Qed.



(** * More properties of the methods *)

(** ** The attributes of a frame *)

Lemma attrs_of_insert_eq (o p : DataFrame) (c : string)
    (s : gmap string DataFrame) (h : list DataFrame) (m : gmap nat Attrs)
    (n : nat) (d : DataFrame) (a : Attrs) :
  attrs_of (MkManager o p c s h (<[df_id d := a]> m) n) d = a.
Proof. unfold attrs_of. fields. by rewrite lookup_insert_eq. Qed.



(** ** Deletion: the case without a parent *)


Section Extras.

Variable filtro_palabras :
  list Row → string → Palabras → string → bool → bool → Exn + list Row.

Variable top_palabras :
  list Row → Attrs → string → Z → option (list string) → Exn + list Row.

(** ** [ver_top_palabras] *)

(** X1.  [ver_top_palabras] changes neither the tables, the store, the
    history nor the attributes, however it ends.  A name that is not in the
    store, [None] included, raises [KeyError] and nothing is printed; an
    exception of [top_palabras] is passed on, nothing printed; otherwise the
    table computed on the column ['descripcion'] of the named entry is
    returned, after the heading and the table are printed ([top_palabras]
    being a function of the frame it is handed, rows and attributes, and of
    its other arguments). *)
Theorem ver_top_palabras_solo_lee (nombre_subset : option string) (top_n : Z)
    (excluir_palabras : option (list string)) (self : Manager) :
  let r := ver_top_palabras top_palabras nombre_subset top_n excluir_palabras
             self in
  (df_original (top_final r) = df_original self ∧
   df_principal (top_final r) = df_principal self ∧
   subsets (top_final r) = subsets self ∧
   _historial_principal (top_final r) = _historial_principal self ∧
   attrs (top_final r) = attrs self) ∧
  (nombre_subset ≫= (λ nombre, subsets self !! nombre) = None →
     r = MkRunTop (Raise (KeyError (default "None" nombre_subset))) self []) ∧
  (∀ nombre d, nombre_subset = Some nombre → subsets self !! nombre = Some d →
     match top_palabras (df_rows d) (attrs_of self d) "descripcion" top_n
             excluir_palabras with
     | inl e => r = MkRunTop (Raise e) self []
     | inr rows =>
         top_outcome r = Return (MkDF (next_id self) rows) ∧
         top_stdout r = [TopEncabezado top_n nombre; TopTabla rows]
     end).
Proof.
  cbv zeta. unfold ver_top_palabras.
  destruct nombre_subset as [nombre|]; cbn [mbind option_bind default from_option].
  - destruct (subsets self !! nombre) as [d|] eqn:Hd.
    + destruct (top_palabras (df_rows d) (attrs_of self d) "descripcion" top_n
                  excluir_palabras) as [e|rows] eqn:Ht.
      * repeat split; try done. intros n d' [= <-]. rewrite Hd. intros [= <-].
        by rewrite Ht.
      * cbn [top_final top_outcome top_stdout new_frame outcome final].
        repeat split; try done. all: intros n d' [= <-]; rewrite Hd;
          intros [= <-]; by rewrite Ht.
    + repeat split; try done. intros n d' [= <-]. by rewrite Hd.
  - repeat split; try done.
Qed.


(** ** [agregar_excluidos] *)


(** X4.  Two calls of [agregar_excluidos] on the same name leave the manager
    that one call with the two lists of words put together leaves. *)
Theorem agregar_excluidos_acumula (nombre_subset : string)
    (palabras1 palabras2 : list string) (self : Manager) (d : DataFrame) :
  subsets self !! nombre_subset = Some d →
  final (agregar_excluidos nombre_subset palabras2
           (final (agregar_excluidos nombre_subset palabras1 self)))
  = final (agregar_excluidos nombre_subset (palabras1 ++ palabras2) self).
Proof.
  intros Hd. rewrite (agregar_excluidos_run _ palabras1 _ _ Hd).
  rewrite (agregar_excluidos_run _ (palabras1 ++ palabras2) _ _ Hd). fields.
  erewrite agregar_excluidos_run by (fields; exact Hd). fields.
  rewrite attrs_of_insert_eq, insert_insert_eq. unfold con_excluidas.
  cbn [default from_option id _palabras_excluidas _parent _aplicado].
  by rewrite app_assoc.
Qed.


(** ** Creation *)


(** X7.  When the name is free and the filter raises, the exception is
    passed on and nothing is registered: [filtrar_por_palabra] and
    [filtrar_subset] (whose source exists) leave the whole manager as it
    was, and print nothing. *)
Theorem filtro_falla_sin_cambios (columna : string) (palabras : Palabras)
    (nombre condicional : string) (cs me : bool) (self : Manager) :
  subsets self !! nombre = None →
  (∀ up parent e,
     filtro_palabras (df_rows (df_origen up self)) columna palabras
       condicional cs me = inl e →
     filtrar_por_palabra filtro_palabras columna palabras nombre condicional
       cs me up parent self = MkRun (Raise e) self []) ∧
  (∀ nombre_origen origen e,
     subsets self !! nombre_origen = Some origen →
     filtro_palabras (df_rows origen) columna palabras condicional cs me
       = inl e →
     filtrar_subset filtro_palabras nombre_origen columna palabras nombre
       condicional cs me self = MkRun (Raise e) self []).
Proof.
  intros Hn. split.
  - intros up parent e He. rewrite filtrar_por_palabra_nuevo by done.
    by rewrite He.
  - intros nombre_origen origen e Ho He.
    rewrite (filtrar_subset_nuevo filtro_palabras _ _ _ _ _ _ _ _ _ Ho Hn).
    by rewrite He.
Qed.



(** ** Deletion *)




(** ** Undo *)

(** X13.  The history is a stack: after two deletions of subsets with rows,
    a first [restaurar_anterior] gives back the rows the principal table had
    between the two, and a second one the rows it had before the first;
    the history is then the one before the first deletion. *)
Theorem deshacer_en_pila (self : Manager) (nombre1 nombre2 : string)
    (propagar1 propagar2 : bool) (subset1 subset2 : DataFrame) :
  subsets self !! nombre1 = Some subset1 → df_rows subset1 ≠ [] →
  let uno := final (aplicar_filtro nombre1 propagar1 self) in
  subsets uno !! nombre2 = Some subset2 → df_rows subset2 ≠ [] →
  let dos := final (aplicar_filtro nombre2 propagar2 uno) in
  let deshecho1 := final (restaurar_anterior dos) in
  let deshecho2 := final (restaurar_anterior deshecho1) in
  df_rows (df_principal deshecho1) = df_rows (df_principal uno) ∧
  _historial_principal deshecho1 = _historial_principal uno ∧
  df_rows (df_principal deshecho2) = df_rows (df_principal self) ∧
  _historial_principal deshecho2 = _historial_principal self.
Proof.
  intros H1 Hnv1. cbv zeta. intros H2 Hnv2.
  destruct (aplicar_filtro_run nombre1 propagar1 self subset1 H1 Hnv1)
    as (_ & _ & _ & _ & Hh1 & _).
  destruct (aplicar_filtro_run nombre2 propagar2 _ subset2 H2 Hnv2)
    as (_ & _ & _ & _ & Hh2 & _).
  rewrite (restaurar_anterior_pop _ _ _ Hh2). cbn [final].
  erewrite (restaurar_anterior_pop _ (_historial_principal self));
    [|cbn [_historial_principal]; exact Hh1].
  fields. cbn [df_rows]. done.
Qed.

(** ** Reading, resetting, and the names of the store *)

(** X14.  [get_subset] raises [KeyError] on a name that is not in the store
    and leaves the manager as it was.  On a name of the store it returns a
    copy: a frame with the rows of the entry, whose identity (in a manager
    whose frames all have an identity below [next_id]) is that of no frame
    the manager holds and which has none of the attributes of the entry;
    the tables, the store, the history and the attributes stay as they
    were. *)
Theorem get_subset_copia (nombre : string) (self : Manager) :
  identidades_frescas self →
  let r := get_subset nombre self in
  (subsets self !! nombre = None →
     r = MkRun (Raise (KeyError nombre)) self []) ∧
  (∀ d, subsets self !! nombre = Some d →
     ∃ copia, outcome r = Return copia ∧
       df_rows copia = df_rows d ∧
       df_id copia ≠ df_id (df_principal self) ∧
       df_id copia ≠ df_id (df_original self) ∧
       (∀ otro d', subsets self !! otro = Some d' → df_id copia ≠ df_id d') ∧
       Forall (λ d', df_id copia ≠ df_id d') (_historial_principal self) ∧
       attrs_of (final r) copia = no_attrs ∧
       subsets (final r) = subsets self ∧
       df_principal (final r) = df_principal self ∧
       _historial_principal (final r) = _historial_principal self ∧
       attrs (final r) = attrs self).
Proof.
  intros (Ho & Hp & Hs & Hl & Ha). cbv zeta. rewrite get_subset_run. split.
  - by intros ->.
  - intros d ->. eexists. split; [reflexivity|]. fields. cbn [df_rows df_id].
    unfold known in *.
    split; [done|]. split; [lia|]. split; [lia|].
    split; [intros otro d' Hd'; specialize (Hs _ _ Hd'); cbn beta in Hs; lia|].
    split; [eapply Forall_impl; [exact Hl|]; cbn beta; intros; lia|].
    split; [|done].
    unfold attrs_of. fields. cbn [df_id].
    destruct (attrs self !! next_id self) as [a|] eqn:Ea; [|done].
    specialize (Ha _ (mk_is_Some _ _ Ea)). lia.
Qed.


(** X16.  No call but [restaurar_todo] removes a name from the store:
    whatever it returns or raises, every name of the store before the call
    is a name of the store after it. *)
Theorem nombres_no_desaparecen (c : Call) (self : Manager) (nombre : string) :
  c ≠ CallRestaurarTodo →
  is_Some (subsets self !! nombre) →
  is_Some (subsets (exec filtro_palabras c self) !! nombre).
Proof.
  intros Hc Hs.
  assert (∀ k (v : DataFrame) (m : gmap string DataFrame),
            is_Some (m !! nombre) → is_Some (<[k := v]> m !! nombre)) as Hins.
  { intros k v m Hm. apply lookup_insert_is_Some'. by right. }
  destruct c as [| |columna palabras nombre' condicional cs me up parent
                 |nombre_subset palabras
                 |nombre_origen columna palabras nombre' condicional cs me
                 |nombre_subset propagar_a_padre| |nombre'];
    cbn [exec]; [|done|..].
  - destruct (restaurar_anterior_final self) as [->|(h & previo & _ & ->)];
      [done|]. fields. by apply Hins.
  - destruct (subsets self !! nombre') as [d|] eqn:Hn.
    + by rewrite filtrar_por_palabra_existe by (by rewrite Hn).
    + rewrite filtrar_por_palabra_nuevo by done.
      destruct (filtro_palabras _ _ _ _ _ _) as [e|rows]; [done|].
      fields. by apply Hins, Hins.
  - destruct (agregar_excluidos_frame nombre_subset palabras self)
      as (_ & _ & _ & -> & _). done.
  - destruct (subsets self !! nombre_origen) as [origen|] eqn:Ho.
    + destruct (subsets self !! nombre') as [d|] eqn:Hn.
      * by rewrite filtrar_subset_existe by (by rewrite ?Ho, ?Hn).
      * rewrite (filtrar_subset_nuevo filtro_palabras _ _ _ _ _ _ _ _ _ Ho Hn).
        destruct (filtro_palabras _ _ _ _ _ _) as [e|rows]; [done|].
        fields. by apply Hins, Hins.
    + by rewrite filtrar_subset_ausente.
  - destruct (subsets self !! nombre_subset) as [subset|] eqn:Hn;
      [|by rewrite aplicar_filtro_ausente].
    destruct (df_rows subset) as [|b bs] eqn:Hrows;
      [by rewrite (aplicar_filtro_vacio _ _ _ _ Hn Hrows)|].
    assert (df_rows subset ≠ []) as Hnv by (by rewrite Hrows).
    destruct (aplicar_filtro_run nombre_subset propagar_a_padre self subset
                Hn Hnv) as (_ & _ & _ & _ & _ & ->).
    by apply subsets_propagados_is_Some, Hins.
  - by rewrite get_principal_run.
  - rewrite get_subset_run. by destruct (subsets self !! nombre').
Qed.


(** X18.  [restaurar_todo] cannot be undone: right after it
    [restaurar_anterior] finds nothing to undo, whatever deletions were in
    the history before. *)
Theorem restaurar_todo_sin_vuelta (self : Manager) :
  restaurar_anterior (final (restaurar_todo self))
  = MkRun (Return ()) (final (restaurar_todo self)) [NoHayOperaciones].
Proof. by apply restaurar_anterior_vacio. Qed.

Lemma exec_solo_quita (c : Call) (self : Manager) :
  solo_quita self → solo_quita (exec filtro_palabras c self).
Proof.
  unfold solo_quita. intros [Hp Hh].
  destruct c as [| |columna palabras nombre' condicional cs me up parent
                 |nombre_subset palabras
                 |nombre_origen columna palabras nombre' condicional cs me
                 |nombre_subset propagar_a_padre| |nombre'];
    cbn [exec].
  - destruct (restaurar_anterior_final self) as [->|(h & previo & Hh' & ->)];
      [done|]. fields. rewrite Hh', Forall_app, Forall_singleton in Hh.
    by destruct Hh.
  - rewrite restaurar_todo_run. fields. cbn [df_rows]. by repeat constructor.
  - destruct (subsets self !! nombre') as [d|] eqn:Hn.
    + by rewrite filtrar_por_palabra_existe by (by rewrite Hn).
    + rewrite filtrar_por_palabra_nuevo by done.
      by destruct (filtro_palabras _ _ _ _ _ _) as [e|rows].
  - destruct (agregar_excluidos_frame nombre_subset palabras self)
      as (-> & -> & _ & _ & ->). done.
  - destruct (subsets self !! nombre_origen) as [origen|] eqn:Hor.
    + destruct (subsets self !! nombre') as [d|] eqn:Hn.
      * by rewrite filtrar_subset_existe by (by rewrite ?Hor, ?Hn).
      * rewrite (filtrar_subset_nuevo filtro_palabras _ _ _ _ _ _ _ _ _ Hor Hn).
        by destruct (filtro_palabras _ _ _ _ _ _) as [e|rows].
    + by rewrite filtrar_subset_ausente.
  - destruct (subsets self !! nombre_subset) as [subset|] eqn:Hn;
      [|by rewrite aplicar_filtro_ausente].
    destruct (df_rows subset) as [|b bs] eqn:Hrows;
      [by rewrite (aplicar_filtro_vacio _ _ _ _ Hn Hrows)|].
    assert (df_rows subset ≠ []) as Hnv by (by rewrite Hrows).
    destruct (aplicar_filtro_run nombre_subset propagar_a_padre self subset
                Hn Hnv) as (_ & -> & _ & -> & -> & _).
    cbn [df_rows]. split.
    + etrans; [apply drop_lines_key_sublist|done].
    + rewrite Forall_app, Forall_singleton. done.
  - by rewrite get_principal_run.
  - rewrite get_subset_run. by destruct (subsets self !! nombre').
Qed.

(** X19.  No call adds a row to the principal table or changes the order
    of its rows: after [__init__] and any list of calls, the rows of the
    principal table, and of every snapshot of the history, are a
    subsequence of the rows the manager was built from. *)
Theorem principal_solo_pierde_filas (df : list Row) (columna : string)
    (calls : list Call) :
  let self := run_calls filtro_palabras calls (__init__ df columna) in
  df_rows (df_principal self) `sublist_of` df ∧
  Forall (λ d, df_rows d `sublist_of` df) (_historial_principal self).
Proof.
  cbv zeta.
  assert (solo_quita (run_calls filtro_palabras calls (__init__ df columna))
          ∧ df_rows (df_original
               (run_calls filtro_palabras calls (__init__ df columna))) = df)
    as [(Hp & Hh) Ho].
  { split.
    - assert (solo_quita (__init__ df columna)) as H0
        by (unfold solo_quita, __init__; fields; cbn [df_rows];
            by repeat constructor).
      revert H0. generalize (__init__ df columna).
      induction calls as [|c calls IH]; intros self H; [done|].
      unfold run_calls in *. cbn [foldl]. apply IH. by apply exec_solo_quita.
    - by destruct (run_calls_invariantes filtro_palabras calls
                     (__init__ df columna)) as [-> _]. }
  rewrite Ho in Hp, Hh. done.
Qed.

End Extras.

(** ** These properties on the fixture *)

Lemma m_A_frescas : identidades_frescas m_A.
Proof.
  change m_A with
    (exec filtro_fixture
       (CallFiltrarPorPalabra "descripcion" (Palabra "x") "A" "OR" false false
          true None) m_inicial).
  apply exec_frescas, init_identidades_frescas.
Qed.


Lemma ver_top_palabras_solo_lee_witness :
  Some "Z" ≫= (λ nombre, subsets m_A !! nombre) = None ∧
  ver_top_palabras top_fixture (Some "Z") 10 None m_A
  = MkRunTop (Raise (KeyError "Z")) m_A [].
Proof.
  assert (Some "Z" ≫= (λ nombre, subsets m_A !! nombre) = None) as H
    by by_computation.
  split; [exact H|].
  destruct (ver_top_palabras_solo_lee top_fixture (Some "Z") 10 None m_A)
    as (_ & Hk & _).
  exact (Hk H).
Defined.


(** The table of the subset [A], and of [None]. *)
Example ver_top_palabras_ejemplo :
  top_outcome (ver_top_palabras top_fixture (Some "A") 2 None m_A)
  = Return (MkDF 3 [fila 1 "x a"; fila 3 "x y"]) ∧
  top_outcome (ver_top_palabras top_fixture None 2 None m_A)
  = Raise (KeyError "None").
Proof. by_computation. Qed.


Lemma agregar_excluidos_acumula_witness :
  subsets m_A !! "A" = Some marco_A ∧
  final (agregar_excluidos "A" ["la"] (final (agregar_excluidos "A" ["de"] m_A)))
  = final (agregar_excluidos "A" (["de"] ++ ["la"]) m_A).
Proof.
  assert (subsets m_A !! "A" = Some marco_A) as H by by_computation.
  split; [exact H|].
  exact (agregar_excluidos_acumula "A" ["de"] ["la"] m_A marco_A H).
Defined.



Lemma filtro_falla_sin_cambios_witness :
  (subsets m_A !! "B" = None ∧
   subsets m_A !! "A" = Some marco_A ∧
   filtro_fixture (df_rows marco_A) "precio" (Palabra "y") "OR" false false
   = inl (KeyError "precio")) ∧
  filtrar_subset filtro_fixture "A" "precio" (Palabra "y") "B" "OR" false false
    m_A
  = MkRun (Raise (KeyError "precio")) m_A [].
Proof.
  assert (subsets m_A !! "B" = None) as H1 by by_computation.
  assert (subsets m_A !! "A" = Some marco_A) as H2 by by_computation.
  assert (filtro_fixture (df_rows marco_A) "precio" (Palabra "y") "OR" false
            false = inl (KeyError "precio")) as H3 by by_computation.
  split; [exact (conj H1 (conj H2 H3))|].
  destruct (filtro_falla_sin_cambios filtro_fixture "precio" (Palabra "y") "B"
              "OR" false false m_A H1) as [_ Hs].
  exact (Hs "A" marco_A (KeyError "precio") H2 H3).
Defined.






Lemma deshacer_en_pila_witness :
  (subsets m_C !! "C" = Some marco_C ∧
   subsets (final (aplicar_filtro "C" true m_C)) !! "A" = Some marco_A) ∧
  df_rows (df_principal
    (final (restaurar_anterior (final (restaurar_anterior
       (final (aplicar_filtro "A" true
          (final (aplicar_filtro "C" true m_C)))))))))
  = df_rows (df_principal m_C).
Proof.
  assert (subsets m_C !! "C" = Some marco_C) as H1 by by_computation.
  assert (subsets (final (aplicar_filtro "C" true m_C)) !! "A" = Some marco_A)
    as H2 by by_computation.
  split; [exact (conj H1 H2)|].
  destruct (deshacer_en_pila m_C "C" "A" true true marco_C marco_A H1
              ltac:(discriminate) H2 ltac:(discriminate)) as (_ & _ & H & _).
  exact H.
Defined.

Lemma get_subset_copia_witness :
  subsets m_A !! "A" = Some marco_A ∧
  ∃ copia, outcome (get_subset "A" m_A) = Return copia ∧
    df_rows copia = df_rows marco_A ∧
    attrs_of (final (get_subset "A" m_A)) copia = no_attrs.
Proof.
  assert (subsets m_A !! "A" = Some marco_A) as H by by_computation.
  split; [exact H|].
  destruct (get_subset_copia "A" m_A m_A_frescas) as [_ Hc].
  destruct (Hc marco_A H) as (copia & Ho & Hr & _ & _ & _ & _ & Ha & _).
  exists copia. exact (conj Ho (conj Hr Ha)).
Defined.


Lemma nombres_no_desaparecen_witness :
  is_Some (subsets m_B !! "A") ∧
  is_Some (subsets (exec filtro_fixture (CallAplicarFiltro "B" true) m_B) !! "A").
Proof.
  assert (is_Some (subsets m_B !! "A")) as H
    by (exists marco_A; by_computation).
  split; [exact H|].
  exact (nombres_no_desaparecen filtro_fixture (CallAplicarFiltro "B" true) m_B
           "A" ltac:(discriminate) H).
Defined.

